(** * LandmarkCostFunction2D: the landmark residual of the 2D pose graph

    A shallow embedding of
    [cartographer/mapping/internal/optimization/cost_functions/landmark_cost_function_2d.h]
    and the properties of its evaluator.

    - [double] is the kernel's binary64 type [float]; a NaN, an infinity and
      the two zeros behave as IEEE 754 says ([FloatAxioms]).
    - [template <typename T>] is a type [T] with an instance of [Numeric]: the
      arithmetic the evaluator itself performs on [T] (Eigen's product of a
      quaternion and a vector) and the conversion [T(double)].
    - [std::array<T, N>] is a record of [N] components, indexed as in C++.
    - The helpers [InterpolateNodes2D], [ComputeUnscaledError] and
      [ScaleErrorWithCovariance] come from [cost_helpers.h], whose
      implementation is not among the sources: the evaluator takes them as
      parameters, at the types its calls fix.  Where a property needs more
      of a helper than its type, the helper is modelled from the spec and
      the definition says so. *)

From Stdlib Require Import ZArith List Bool Floats Reals Lra Lia.
Import ListNotations.

Set Implicit Arguments.

(** ** IEEE 754 doubles *)

Module Double.

(** The class of a double, read off its IEEE 754 decomposition. *)
Definition is_nan (x : float) : bool :=
  match Prim2SF x with S754_nan => true | _ => false end.

Definition is_infinite (x : float) : bool :=
  match Prim2SF x with S754_infinity _ => true | _ => false end.

(** [x == 0.0] in C++: either zero. *)
Definition is_zero (x : float) : bool :=
  match Prim2SF x with S754_zero _ => true | _ => false end.

(** [std::isfinite]. *)
Definition is_finite (x : float) : bool :=
  match Prim2SF x with
  | S754_zero _ | S754_finite _ _ _ => true
  | S754_nan | S754_infinity _ => false
  end.

Definition non_finite (x : float) : bool := is_nan x || is_infinite x.

(** [static_cast<double>] of a 64-bit integer: the nearest double, ties to
    even. *)
Definition of_int64 (z : Z) : float :=
  SF2Prim (binary_normalize prec emax z 0 false).

End Double.

(** ** Fixed-size arrays *)

Record array3 (T : Type) := Array3 { at3_0 : T; at3_1 : T; at3_2 : T }.

Record array4 (T : Type) :=
  Array4 { at4_0 : T; at4_1 : T; at4_2 : T; at4_3 : T }.

Record array6 (T : Type) :=
  Array6 { at6_0 : T; at6_1 : T; at6_2 : T; at6_3 : T; at6_4 : T; at6_5 : T }.

Record array9 (T : Type) :=
  Array9 { at9_0 : T; at9_1 : T; at9_2 : T;
           at9_3 : T; at9_4 : T; at9_5 : T;
           at9_6 : T; at9_7 : T; at9_8 : T }.

(** [std::begin(a) .. std::end(a)]. *)
Definition elements4 {T} (a : array4 T) : list T :=
  [at4_0 a; at4_1 a; at4_2 a; at4_3 a].

Definition elements6 {T} (a : array6 T) : list T :=
  [at6_0 a; at6_1 a; at6_2 a; at6_3 a; at6_4 a; at6_5 a].

Definition elements9 {T} (a : array9 T) : list T :=
  [at9_0 a; at9_1 a; at9_2 a; at9_3 a; at9_4 a; at9_5 a;
   at9_6 a; at9_7 a; at9_8 a].

(** Every component is a zero, of either sign. *)
Definition all_zero (v : array6 float) : bool :=
  forallb Double.is_zero (elements6 v).

Definition all_finite (v : array6 float) : bool :=
  forallb Double.is_finite (elements6 v).

(** ** The numeric type of the template *)

Class Numeric (T : Type) := {
  of_double : float -> T;       (* T(x) for a double x *)
  plus : T -> T -> T;
  minus : T -> T -> T;
  times : T -> T -> T
}.

Declare Scope numeric_scope.
Delimit Scope numeric_scope with num.
Infix "+" := plus : numeric_scope.
Infix "-" := minus : numeric_scope.
Infix "*" := times : numeric_scope.

(** [T = double]. *)
#[export] Instance Numeric_double : Numeric float := {
  of_double := fun x => x;
  plus := PrimFloat.add;
  minus := PrimFloat.sub;
  times := PrimFloat.mul
}.

(** ** Eigen *)

Module Eigen.

(** [Eigen::Quaternion<T>(w, x, y, z)]. *)
Record Quaternion (T : Type) :=
  MakeQuaternion { w : T; x : T; y : T; z : T }.

(** [Eigen::Matrix<T, 3, 1>]. *)
Record Vector3 (T : Type) := MakeVector3 { v0 : T; v1 : T; v2 : T }.

Section Generic.
Context {T : Type} `{Numeric T}.
Local Open Scope numeric_scope.

(** [a.cross(b)]. *)
Definition cross (a b : Vector3 T) : Vector3 T :=
  MakeVector3 (v1 a * v2 b - v2 a * v1 b)
              (v2 a * v0 b - v0 a * v2 b)
              (v0 a * v1 b - v1 a * v0 b).

(** [q.vec()]. *)
Definition vec (q : Quaternion T) : Vector3 T :=
  MakeVector3 (x q) (y q) (z q).

(** [q * v], that is [QuaternionBase::_transformVector]:
[[
  Vector3 uv = this->vec().cross(v);
  uv += uv;
  return v + this->w() * uv + this->vec().cross(uv);
]] *)
Definition transformVector (q : Quaternion T) (v : Vector3 T) : Vector3 T :=
  let uv := cross (vec q) v in
  let uv := MakeVector3 (v0 uv + v0 uv) (v1 uv + v1 uv) (v2 uv + v2 uv) in
  let c := cross (vec q) uv in
  MakeVector3 (v0 v + w q * v0 uv + v0 c)
              (v1 v + w q * v1 uv + v1 c)
              (v2 v + w q * v2 uv + v2 c).
End Generic.

Definition Quaterniond := Quaternion float.
Definition Vector3d := Vector3 float.

End Eigen.


(** ** Time *)

Module common.

(** Modelled from the spec: [common::Time], [common::Duration] and
    [common::ToSeconds] ([common/time.h], not among the sources).  The spec
    has timestamps and a ratio of two time differences in seconds; here a
    time is a signed 64-bit count of clock ticks, the difference of two
    times is the 64-bit difference of their counts, and [ToSeconds] is that
    count as a double divided by the ticks of one second (a tick is 100 ns). *)
Definition Time := Z.

Definition Duration := Z.

Definition int64 (z : Z) : Z := ((z + 2 ^ 63) mod 2 ^ 64 - 2 ^ 63)%Z.

(** [a - b] on two times. *)
Definition time_diff (a b : Time) : Duration := int64 (a - b).

Definition ticks_per_second : float := 10000000%float.

Definition ToSeconds (d : Duration) : float :=
  (Double.of_int64 d / ticks_per_second)%float.

End common.

(** ** Rigid transforms *)

Module transform.

(** Modelled from the spec: [transform::Rigid3d]
    ([transform/rigid_transform.h], not among the sources), the "rigid
    transform (rotation + translation)" of the observation, in doubles. *)
Record Rigid3d := MakeRigid3d {
  translation : Eigen.Vector3d;
  rotation : Eigen.Quaterniond
}.

End transform.

(** ** What the constructor reads *)

(** Modelled from the spec:
    [PoseGraphInterface::LandmarkNode::LandmarkObservation]
    ([pose_graph_interface.h], not among the sources).  The fields are the
    ones the constructor reads, each at the type of the member it
    initialises. *)
Record LandmarkObservation := MakeLandmarkObservation {
  time : common.Time;
  landmark_to_tracking_transform : transform.Rigid3d;
  translation_weight : float;
  rotation_weight : float;
  observed_from_tracking : bool;
  inverse_covariance : array9 float
}.

(** Modelled from the spec: [NodeSpec2D] ([optimization_problem_2d.h], not
    among the sources).  The fields are the ones the constructor reads;
    [node_time] is its [time]. *)
Record NodeSpec2D := MakeNodeSpec2D {
  node_time : common.Time;
  gravity_alignment : Eigen.Quaterniond
}.

(** ** The cost function object *)

(** The private members, lines 112-119, all [const]. *)
Record LandmarkCostFunction2D := MakeLandmarkCostFunction2D {
  landmark_to_tracking_transform_ : transform.Rigid3d;
  prev_node_gravity_alignment_ : Eigen.Quaterniond;
  next_node_gravity_alignment_ : Eigen.Quaterniond;
  translation_weight_ : float;
  rotation_weight_ : float;
  interpolation_parameter_ : float;
  observed_from_tracking_ : bool;
  inverse_covariance_ : array9 float
}.

(** The constructor, lines 97-110. *)
Definition new (observation : LandmarkObservation)
    (prev_node next_node : NodeSpec2D) : LandmarkCostFunction2D :=
  {| landmark_to_tracking_transform_ := landmark_to_tracking_transform observation;
     prev_node_gravity_alignment_ := gravity_alignment prev_node;
     next_node_gravity_alignment_ := gravity_alignment next_node;
     translation_weight_ := translation_weight observation;
     rotation_weight_ := rotation_weight observation;
     interpolation_parameter_ :=
       (common.ToSeconds (common.time_diff (time observation) (node_time prev_node)) /
        common.ToSeconds (common.time_diff (node_time next_node) (node_time prev_node)))%float;
     observed_from_tracking_ := observation.(observed_from_tracking);
     inverse_covariance_ := inverse_covariance observation |}.

(** The object [c] with its direction flag set to [b]. *)
Definition with_observed_from_tracking (b : bool) (c : LandmarkCostFunction2D)
    : LandmarkCostFunction2D :=
  {| landmark_to_tracking_transform_ := landmark_to_tracking_transform_ c;
     prev_node_gravity_alignment_ := prev_node_gravity_alignment_ c;
     next_node_gravity_alignment_ := next_node_gravity_alignment_ c;
     translation_weight_ := translation_weight_ c;
     rotation_weight_ := rotation_weight_ c;
     interpolation_parameter_ := interpolation_parameter_ c;
     observed_from_tracking_ := b;
     inverse_covariance_ := inverse_covariance_ c |}.

(** ** The evaluator, [operator()] *)

Section Evaluator.

Context {T : Type} `{Numeric T}.

(** The three helpers of [cost_helpers.h], at the types of their calls. *)
Variable InterpolateNodes2D :
  array3 T -> Eigen.Quaterniond -> array3 T -> Eigen.Quaterniond -> float ->
  array4 T * array3 T.

Variable ComputeUnscaledError :
  transform.Rigid3d -> array4 T -> array3 T -> array4 T -> array3 T -> array6 T.

Variable ScaleErrorWithCovariance :
  array6 T -> float -> float -> array9 float -> array6 T.

(** Lines 57-60: the interpolated rotation and translation. *)
Definition interpolated_rotation_and_translation (c : LandmarkCostFunction2D)
    (prev_node_pose next_node_pose : array3 T) : array4 T * array3 T :=
  InterpolateNodes2D prev_node_pose (prev_node_gravity_alignment_ c)
                     next_node_pose (next_node_gravity_alignment_ c)
                     (interpolation_parameter_ c).

(** Lines 61-72: the unscaled error. *)
Definition unscaled_error (c : LandmarkCostFunction2D)
    (prev_node_pose next_node_pose : array3 T)
    (landmark_rotation : array4 T) (landmark_translation : array3 T) : array6 T :=
  let irt := interpolated_rotation_and_translation c prev_node_pose next_node_pose in
  if observed_from_tracking_ c
  then ComputeUnscaledError (landmark_to_tracking_transform_ c)
                            (fst irt) (snd irt)
                            landmark_rotation landmark_translation
  else ComputeUnscaledError (landmark_to_tracking_transform_ c)
                            landmark_rotation landmark_translation
                            (fst irt) (snd irt).

(** Lines 74-86: the translation error rotated by the interpolated rotation. *)
Definition rotate_to_ENU (interpolated_rotation : array4 T) (error : array6 T)
    : array6 T :=
  let interpolated_quaternion :=
    Eigen.MakeQuaternion (at4_0 interpolated_rotation) (at4_1 interpolated_rotation)
                         (at4_2 interpolated_rotation) (at4_3 interpolated_rotation) in
  let translation_error :=
    Eigen.MakeVector3 (at6_0 error) (at6_1 error) (at6_2 error) in
  let translation_error :=
    Eigen.transformVector interpolated_quaternion translation_error in
  Array6 (Eigen.v0 translation_error) (Eigen.v1 translation_error)
         (Eigen.v2 translation_error)
         (at6_3 error) (at6_4 error) (at6_5 error).

(** Lines 53-94.  [e] is the caller's buffer of six residuals as the call
    finds it; the result is the returned flag and the buffer as the call
    leaves it. *)
Definition call (c : LandmarkCostFunction2D)
    (prev_node_pose next_node_pose : array3 T)
    (landmark_rotation : array4 T) (landmark_translation : array3 T)
    (e : array6 T) : bool * array6 T :=
  let irt := interpolated_rotation_and_translation c prev_node_pose next_node_pose in
  let error :=
    unscaled_error c prev_node_pose next_node_pose
                   landmark_rotation landmark_translation in
  let interpolated_rotation := fst irt in
  let error := rotate_to_ENU interpolated_rotation error in
  let error :=
    ScaleErrorWithCovariance error (translation_weight_ c) (rotation_weight_ c)
                             (inverse_covariance_ c) in
  (true, error).

End Evaluator.

(** ** Repeated evaluation

    The solver calls [operator()] of one object many times, each time with
    its own parameter blocks and the same residual buffer.  What persists
    from one call to the next is the object and the buffer. *)

(** The four parameter blocks of one call. *)
Record Blocks (T : Type) := MakeBlocks {
  prev_node_pose : array3 T;
  next_node_pose : array3 T;
  landmark_rotation : array4 T;
  landmark_translation : array3 T
}.

(** The object and the residual buffer between two calls. *)
Record Store (T : Type) := MakeStore {
  this : LandmarkCostFunction2D;
  residuals : array6 T
}.

Section Solver.

Context {T : Type} `{Numeric T}.

Variable InterpolateNodes2D :
  array3 T -> Eigen.Quaterniond -> array3 T -> Eigen.Quaterniond -> float ->
  array4 T * array3 T.

Variable ComputeUnscaledError :
  transform.Rigid3d -> array4 T -> array3 T -> array4 T -> array3 T -> array6 T.

Variable ScaleErrorWithCovariance :
  array6 T -> float -> float -> array9 float -> array6 T.

(** One call: the flag it returns and the store it leaves.  The method and
    every member are [const]; the call writes the buffer only. *)
Definition evaluate (b : Blocks T) (s : Store T) : bool * Store T :=
  let r := call InterpolateNodes2D ComputeUnscaledError ScaleErrorWithCovariance
                (this s) (prev_node_pose b) (next_node_pose b)
                (landmark_rotation b) (landmark_translation b) (residuals s) in
  (fst r, MakeStore (this s) (snd r)).

(** A sequence of calls, first to last. *)
Fixpoint evaluations (bs : list (Blocks T)) (s : Store T) : Store T :=
  match bs with
  | [] => s
  | b :: bs' => evaluations bs' (snd (evaluate b s))
  end.

End Solver.


(** ** The helpers of [cost_helpers.h] *)

Module cost_helpers.

Section Scaling.

Context {T : Type} `{Numeric T}.
Local Open Scope numeric_scope.

(** Modelled from the spec: the weights of [ScaleErrorWithCovariance]
    ([cost_helpers_impl.h], not among the sources).  "Translation components
    (first 3) and rotation components (last 3) are first scaled by their
    respective scalar weights". *)
Definition scale_by_weights (error : array6 T)
    (translation_weight rotation_weight : float) : array6 T :=
  Array6 (at6_0 error * of_double translation_weight)
         (at6_1 error * of_double translation_weight)
         (at6_2 error * of_double translation_weight)
         (at6_3 error * of_double rotation_weight)
         (at6_4 error * of_double rotation_weight)
         (at6_5 error * of_double rotation_weight).

(** A row of doubles times a 6-vector. *)
Definition row_times (row : array6 float) (v : array6 T) : T :=
  of_double (at6_0 row) * at6_0 v + of_double (at6_1 row) * at6_1 v
  + of_double (at6_2 row) * at6_2 v + of_double (at6_3 row) * at6_3 v
  + of_double (at6_4 row) * at6_4 v + of_double (at6_5 row) * at6_5 v.

(** A 6x6 matrix of doubles, by rows, times a 6-vector. *)
Definition matrix_times (m : array6 (array6 float)) (v : array6 T) : array6 T :=
  Array6 (row_times (at6_0 m) v) (row_times (at6_1 m) v) (row_times (at6_2 m) v)
         (row_times (at6_3 m) v) (row_times (at6_4 m) v) (row_times (at6_5 m) v).

(** The object hands the helper its [inverse_covariance_], nine doubles.
    Which linear transform of a 6-vector the nine stand for is the helper's
    business; it is left open here. *)
Variable linear_transform : array9 float -> array6 (array6 float).

(** Modelled from the spec: [ScaleErrorWithCovariance]
    ([cost_helpers_impl.h], not among the sources).  The error is scaled by
    the two weights, then "the inverse-covariance matrix is applied as a
    linear transform". *)
Definition ScaleErrorWithCovariance (error : array6 T)
    (translation_weight rotation_weight : float)
    (inverse_covariance : array9 float) : array6 T :=
  matrix_times (linear_transform inverse_covariance)
               (scale_by_weights error translation_weight rotation_weight).

End Scaling.

End cost_helpers.

(** ** The pose interpolator of the spec *)

Module pose_interpolator.

Local Open Scope R_scope.

(** Modelled from the spec: a trajectory node pose, "rotation (unit
    quaternion) + translation (3-vector) + gravity-alignment rotation (unit
    quaternion)", over the real numbers. *)
Record TrajectoryNodePose := MakeTrajectoryNodePose {
  node_rotation : Eigen.Quaternion R;
  node_translation : Eigen.Vector3 R;
  node_gravity_alignment : Eigen.Quaternion R
}.



Definition dot (p q : Eigen.Quaternion R) : R :=
  Eigen.w p * Eigen.w q + Eigen.x p * Eigen.x q
  + Eigen.y p * Eigen.y q + Eigen.z p * Eigen.z q.

Definition scale (k : R) (q : Eigen.Quaternion R) : Eigen.Quaternion R :=
  Eigen.MakeQuaternion (k * Eigen.w q) (k * Eigen.x q)
                       (k * Eigen.y q) (k * Eigen.z q).

Definition sum (p q : Eigen.Quaternion R) : Eigen.Quaternion R :=
  Eigen.MakeQuaternion (Eigen.w p + Eigen.w q) (Eigen.x p + Eigen.x q)
                       (Eigen.y p + Eigen.y q) (Eigen.z p + Eigen.z q).

Definition opposite (q : Eigen.Quaternion R) : Eigen.Quaternion R :=
  Eigen.MakeQuaternion (- Eigen.w q) (- Eigen.x q) (- Eigen.y q) (- Eigen.z q).

Definition conjugate (q : Eigen.Quaternion R) : Eigen.Quaternion R :=
  Eigen.MakeQuaternion (Eigen.w q) (- Eigen.x q) (- Eigen.y q) (- Eigen.z q).

(** The product of two quaternions, the composition of two rotations. *)
Definition compose (p q : Eigen.Quaternion R) : Eigen.Quaternion R :=
  Eigen.MakeQuaternion
    (Eigen.w p * Eigen.w q - Eigen.x p * Eigen.x q
     - Eigen.y p * Eigen.y q - Eigen.z p * Eigen.z q)
    (Eigen.w p * Eigen.x q + Eigen.x p * Eigen.w q
     + Eigen.y p * Eigen.z q - Eigen.z p * Eigen.y q)
    (Eigen.w p * Eigen.y q - Eigen.x p * Eigen.z q
     + Eigen.y p * Eigen.w q + Eigen.z p * Eigen.x q)
    (Eigen.w p * Eigen.z q + Eigen.x p * Eigen.y q
     - Eigen.y p * Eigen.x q + Eigen.z p * Eigen.w q).


(** Modelled from the spec: "spherical linear interpolation (shortest-arc)".
    The end point is negated when the two quaternions are more than a right
    angle apart, so that the arc is the shorter one; [theta] is the angle
    between them; two quaternions with no angle between them are
    interpolated linearly. *)
Definition slerp (p q : Eigen.Quaternion R) (t : R) : Eigen.Quaternion R :=
  let d := dot p q in
  let q' := if Rlt_dec d 0 then opposite q else q in
  if Rlt_dec (Rabs d) 1
  then let theta := acos (Rabs d) in
       sum (scale (sin ((1 - t) * theta) / sin theta) p)
           (scale (sin (t * theta) / sin theta) q')
  else sum (scale (1 - t) p) (scale t q').

(** Modelled from the spec: "linear interpolation between the two
    translation vectors". *)
Definition lerp (a b : Eigen.Vector3 R) (t : R) : Eigen.Vector3 R :=
  Eigen.MakeVector3 (Eigen.v0 a + t * (Eigen.v0 b - Eigen.v0 a))
                    (Eigen.v1 a + t * (Eigen.v1 b - Eigen.v1 a))
                    (Eigen.v2 a + t * (Eigen.v2 b - Eigen.v2 a)).

(** Modelled from the spec: "each first adjusted by removing its
    gravity-alignment component". *)
Definition remove_gravity (n : TrajectoryNodePose) : Eigen.Quaternion R :=
  compose (node_rotation n) (conjugate (node_gravity_alignment n)).

(** Modelled from the spec: the pose interpolator, [InterpolateNodes2D] of
    [cost_helpers_impl.h] (not among the sources).  The gravity-free
    rotations are interpolated, "then the result is re-composed with an
    interpolated gravity alignment"; the translations are interpolated
    linearly.

    This is the spec's contract, "given two rotations, two translations,
    two gravity-alignment rotations, and a scalar parameter t", in exact
    arithmetic: the arc needs a sine and an arc cosine, which binary64 as
    the kernel has it does not provide, so rounding is outside this
    definition.  The call of line 58 hands over each node as three pose
    variables and a gravity alignment; how these make up the rotation of
    the node is the helper's business, which neither the header nor the
    spec tells. *)
Definition Interpolate (prev next : TrajectoryNodePose) (t : R)
    : Eigen.Quaternion R * Eigen.Vector3 R :=
  (compose (slerp (remove_gravity prev) (remove_gravity next) t)
           (slerp (node_gravity_alignment prev) (node_gravity_alignment next) t),
   lerp (node_translation prev) (node_translation next) t).

End pose_interpolator.

(** ** Concrete runs *)

Module scenario.

Local Open Scope float_scope.

Definition identity_quaternion : Eigen.Quaterniond :=
  Eigen.MakeQuaternion 1 0 0 0.

Definition identity_transform : transform.Rigid3d :=
  transform.MakeRigid3d (Eigen.MakeVector3 0 0 0) identity_quaternion.

Definition identity_3x3 : array9 float := Array9 1 0 0 0 1 0 0 0 1.

(** One way to read the nine doubles: a 3x3 matrix, by rows, on the
    translation error, and the identity on the rotation error. *)
Definition translation_block (m : array9 float) : array6 (array6 float) :=
  Array6 (Array6 (at9_0 m) (at9_1 m) (at9_2 m) 0 0 0)
         (Array6 (at9_3 m) (at9_4 m) (at9_5 m) 0 0 0)
         (Array6 (at9_6 m) (at9_7 m) (at9_8 m) 0 0 0)
         (Array6 0 0 0 1 0 0)
         (Array6 0 0 0 0 1 0)
         (Array6 0 0 0 0 0 1).

(** Modelled from the spec: [InterpolateNodes2D] ([cost_helpers_impl.h],
    not among the sources) on nodes that carry no rotation, to run the
    evaluator on concrete poses.  The interpolated rotation is the identity;
    x and y follow the spec's "linear interpolation between the two
    translation vectors". *)
Definition InterpolateNodes2D_unrotated
    (prev_node_pose : array3 float) (_ : Eigen.Quaterniond)
    (next_node_pose : array3 float) (_ : Eigen.Quaterniond)
    (interpolation_parameter : float) : array4 float * array3 float :=
  (Array4 1 0 0 0,
   Array3 (at3_0 prev_node_pose
           + interpolation_parameter * (at3_0 next_node_pose - at3_0 prev_node_pose))
          (at3_1 prev_node_pose
           + interpolation_parameter * (at3_1 next_node_pose - at3_1 prev_node_pose))
          0).

(** Modelled from the spec: [ComputeUnscaledError] ([cost_helpers_impl.h],
    not among the sources) on poses that carry no rotation.  "Translation
    error = difference between predicted and actual translation": the
    observed translation less the translation from the first pose to the
    second; the rotation error "is exactly zero when predicted and actual
    rotations coincide". *)
Definition ComputeUnscaledError_unrotated
    (relative_pose : transform.Rigid3d)
    (start_rotation : array4 float) (start_translation : array3 float)
    (end_rotation : array4 float) (end_translation : array3 float)
    : array6 float :=
  Array6 (Eigen.v0 (transform.translation relative_pose)
          - (at3_0 end_translation - at3_0 start_translation))
         (Eigen.v1 (transform.translation relative_pose)
          - (at3_1 end_translation - at3_1 start_translation))
         (Eigen.v2 (transform.translation relative_pose)
          - (at3_2 end_translation - at3_2 start_translation))
         0 0 0.

(** The end-to-end scenario of the spec: the previous node at the origin at
    0 s, the next node at (1, 0, 0) at 1 s, the landmark seen from the
    tracking frame at 0.5 s with the identity transform, the landmark
    estimate at (0.5, 0, 0), the identity as inverse covariance. *)
Definition node_at (t : common.Time) : NodeSpec2D :=
  MakeNodeSpec2D t identity_quaternion.

Definition prev_node : NodeSpec2D := node_at 0%Z.

Definition next_node : NodeSpec2D := node_at 10000000%Z.

Definition observation (translation_weight rotation_weight : float)
    : LandmarkObservation :=
  MakeLandmarkObservation 5000000%Z identity_transform
                          translation_weight rotation_weight true identity_3x3.

(** A second node at the time of the previous one, turned by half a turn. *)
Definition stalled_node : NodeSpec2D :=
  MakeNodeSpec2D 0%Z (Eigen.MakeQuaternion 0 0 0 1).

Definition cost_function (translation_weight rotation_weight : float)
    : LandmarkCostFunction2D :=
  new (observation translation_weight rotation_weight) prev_node next_node.

Definition blocks : Blocks float :=
  MakeBlocks (Array3 0 0 0) (Array3 1 0 0) (Array4 1 0 0 0) (Array3 0.5 0 0).

(** The same with the landmark estimate one unit short along x. *)
Definition blocks_off : Blocks float :=
  MakeBlocks (Array3 0 0 0) (Array3 1 0 0) (Array4 1 0 0 0) (Array3 1.5 0 0).

(** The evaluator on these helpers. *)
Definition run (c : LandmarkCostFunction2D) (b : Blocks float) : bool * array6 float :=
  call InterpolateNodes2D_unrotated ComputeUnscaledError_unrotated
       (cost_helpers.ScaleErrorWithCovariance translation_block)
       c (prev_node_pose b) (next_node_pose b)
       (landmark_rotation b) (landmark_translation b)
       (Array6 0 0 0 0 0 0).



End scenario.

(** ** Other instances of the template *)

Definition map3 {A B} (f : A -> B) (a : array3 A) : array3 B :=
  Array3 (f (at3_0 a)) (f (at3_1 a)) (f (at3_2 a)).

Definition map4 {A B} (f : A -> B) (a : array4 A) : array4 B :=
  Array4 (f (at4_0 a)) (f (at4_1 a)) (f (at4_2 a)) (f (at4_3 a)).

Definition map6 {A B} (f : A -> B) (a : array6 A) : array6 B :=
  Array6 (f (at6_0 a)) (f (at6_1 a)) (f (at6_2 a))
         (f (at6_3 a)) (f (at6_4 a)) (f (at6_5 a)).

Module ceres.

(** [ceres::Jet<double, N>] of [ceres/jet.h], the type at which
    [ceres::AutoDiffCostFunction] instantiates [operator()]: a value [a] and
    the vector [v] of its [N] partial derivatives. *)
Record Jet := MakeJet { a : float; v : list float }.

(** [f.v + g.v], [f.v - g.v] on the derivative vectors. *)
Fixpoint zip_with (op : float -> float -> float) (u w : list float) : list float :=
  match u, w with
  | x :: u', y :: w' => op x y :: zip_with op u' w'
  | _, _ => []
  end.

(** [Jet(value)]: the derivatives of a constant are zero. *)
Definition of_value (N : nat) (value : float) : Jet :=
  MakeJet value (repeat 0%float N).

(** [operator+]: [Jet(f.a + g.a, f.v + g.v)]. *)
Definition jet_plus (f g : Jet) : Jet :=
  MakeJet (a f + a g)%float (zip_with PrimFloat.add (v f) (v g)).

(** [operator-]: [Jet(f.a - g.a, f.v - g.v)]. *)
Definition jet_minus (f g : Jet) : Jet :=
  MakeJet (a f - a g)%float (zip_with PrimFloat.sub (v f) (v g)).

(** [operator*]: [Jet(f.a * g.a, f.a * g.v + f.v * g.a)]. *)
Definition jet_times (f g : Jet) : Jet :=
  MakeJet (a f * a g)%float
          (zip_with PrimFloat.add
                    (map (fun d => a f * d)%float (v g))
                    (map (fun d => d * a g)%float (v f))).

(** [T = ceres::Jet<double, N>]. *)
Definition Numeric_Jet (N : nat) : Numeric Jet :=
  {| of_double := of_value N;
     plus := jet_plus;
     minus := jet_minus;
     times := jet_times |}.

(** The number of parameters [CreateAutoDiffCostFunction] declares, lines
    45-49: two node poses of 3, a landmark rotation of 4 and a landmark
    translation of 3. *)
Definition parameter_block_sizes : list nat := [3; 3; 4; 3]%nat.

Definition kNumResiduals : nat := 6.

Definition number_of_parameters : nat := fold_right Nat.add 0%nat parameter_block_sizes.

(** A jet that carries the right number of derivatives. *)
Definition well_sized (N : nat) (f : Jet) : Prop := length (v f) = N.

End ceres.

(** Exact arithmetic: [T] is the real numbers, with any conversion from
    doubles. *)
Definition Numeric_real (cast : float -> R) : Numeric R :=
  {| of_double := cast; plus := Rplus; minus := Rminus; times := Rmult |}.

(** The squared length of the translation part of an error. *)
Definition translation_length2 (e : array6 R) : R :=
  (at6_0 e * at6_0 e + at6_1 e * at6_1 e + at6_2 e * at6_2 e)%R.

(** The squared norm of a quaternion held as [w, x, y, z]. *)
Definition quaternion_norm2 (q : array4 R) : R :=
  (at4_0 q * at4_0 q + at4_1 q * at4_1 q + at4_2 q * at4_2 q + at4_3 q * at4_3 q)%R.

(** The squared length of the cross product of the vector part of [q] and
    the translation part of [e]. *)
Definition cross_length2 (q : array4 R) (e : array6 R) : R :=
  ((at4_2 q * at6_2 e - at4_3 q * at6_1 e) * (at4_2 q * at6_2 e - at4_3 q * at6_1 e)
   + (at4_3 q * at6_0 e - at4_1 q * at6_2 e) * (at4_3 q * at6_0 e - at4_1 q * at6_2 e)
   + (at4_1 q * at6_1 e - at4_2 q * at6_0 e) * (at4_1 q * at6_1 e - at4_2 q * at6_0 e))%R.

(** The rotation step of the evaluator in exact arithmetic. *)
Definition rotate_to_ENU_exact (cast : float -> R) : array4 R -> array6 R -> array6 R :=
  @rotate_to_ENU R (Numeric_real cast).

(** ** Comparing doubles *)

(** [x == y] for doubles that are not NaN: the same double, or two zeros. *)
Definition same_value (x y : float) : Prop :=
  x = y \/ (Double.is_zero x = true /\ Double.is_zero y = true).

(** ** Shifting the clock *)

(** Every timestamp moved by [k] ticks, in 64 bits. *)
Definition shift_time (k : Z) (t : common.Time) : common.Time :=
  common.int64 (t + k).

Definition shift_observation (k : Z) (o : LandmarkObservation) : LandmarkObservation :=
  MakeLandmarkObservation (shift_time k (time o))
    (landmark_to_tracking_transform o) (translation_weight o)
    (rotation_weight o) (observed_from_tracking o) (inverse_covariance o).

Definition shift_node (k : Z) (n : NodeSpec2D) : NodeSpec2D :=
  MakeNodeSpec2D (shift_time k (node_time n)) (gravity_alignment n).

(** ** The two instances the solver runs *)

(** [operator()<double>], the instance evaluated for residuals alone. *)
Definition call_double := @call float Numeric_double.

(** [operator()<ceres::Jet<double, N>>], the instance evaluated for
    residuals and Jacobians. *)
Definition call_jet (N : nat) := @call ceres.Jet (ceres.Numeric_Jet N).

Definition rotate_to_ENU_double := @rotate_to_ENU float Numeric_double.

Definition rotate_to_ENU_jet (N : nat) := @rotate_to_ENU ceres.Jet (ceres.Numeric_Jet N).

(** Modelled from the spec: the two helpers of the scenario
    ([InterpolateNodes2D] and [ComputeUnscaledError] of
    [cost_helpers_impl.h], not among the sources, on poses that carry no
    rotation), written once for every [T]. *)
Definition InterpolateNodes2D_unrotated_at {T : Type} `{Numeric T}
    (prev_node_pose : array3 T) (_ : Eigen.Quaterniond)
    (next_node_pose : array3 T) (_ : Eigen.Quaterniond)
    (interpolation_parameter : float) : array4 T * array3 T :=
  (Array4 (of_double 1%float) (of_double 0%float) (of_double 0%float) (of_double 0%float),
   Array3 (at3_0 prev_node_pose
           + of_double interpolation_parameter
             * (at3_0 next_node_pose - at3_0 prev_node_pose))%num
          (at3_1 prev_node_pose
           + of_double interpolation_parameter
             * (at3_1 next_node_pose - at3_1 prev_node_pose))%num
          (of_double 0%float)).

Definition ComputeUnscaledError_unrotated_at {T : Type} `{Numeric T}
    (relative_pose : transform.Rigid3d)
    (start_rotation : array4 T) (start_translation : array3 T)
    (end_rotation : array4 T) (end_translation : array3 T)
    : array6 T :=
  Array6 (of_double (Eigen.v0 (transform.translation relative_pose))
          - (at3_0 end_translation - at3_0 start_translation))%num
         (of_double (Eigen.v1 (transform.translation relative_pose))
          - (at3_1 end_translation - at3_1 start_translation))%num
         (of_double (Eigen.v2 (transform.translation relative_pose))
          - (at3_2 end_translation - at3_2 start_translation))%num
         (of_double 0%float) (of_double 0%float) (of_double 0%float).

(** A parameter as the solver seeds it for differentiation: its value and
    the unit derivative of its own slot [i] among [N]. *)
Definition seed (N i : nat) (value : float) : ceres.Jet :=
  ceres.MakeJet value
    (map (fun j => if Nat.eqb i j then 1%float else 0%float) (seq 0 N)).

(** The parameter blocks of the scenario, seeded for the 13 parameters. *)
Definition seeded_blocks : Blocks ceres.Jet :=
  MakeBlocks
    (Array3 (seed 13 0 0) (seed 13 1 0) (seed 13 2 0))
    (Array3 (seed 13 3 1) (seed 13 4 0) (seed 13 5 0))
    (Array4 (seed 13 6 1) (seed 13 7 0) (seed 13 8 0) (seed 13 9 0))
    (Array3 (seed 13 10 0.5) (seed 13 11 0) (seed 13 12 0)).

(** The evaluator on jets with the helpers of the scenario. *)
Definition run_jet (c : LandmarkCostFunction2D) (b : Blocks ceres.Jet)
    : bool * array6 ceres.Jet :=
  call_jet 13
    (@InterpolateNodes2D_unrotated_at ceres.Jet (ceres.Numeric_Jet 13))
    (@ComputeUnscaledError_unrotated_at ceres.Jet (ceres.Numeric_Jet 13))
    (@cost_helpers.ScaleErrorWithCovariance ceres.Jet (ceres.Numeric_Jet 13)
       scenario.translation_block)
    c (prev_node_pose b) (next_node_pose b)
    (landmark_rotation b) (landmark_translation b)
    (Array6 (seed 13 0 0) (seed 13 0 0) (seed 13 0 0)
            (seed 13 0 0) (seed 13 0 0) (seed 13 0 0)).

(** The evaluator on doubles with the same helpers. *)
Definition run_double (c : LandmarkCostFunction2D) (b : Blocks float)
    : bool * array6 float :=
  call_double
    (@InterpolateNodes2D_unrotated_at float Numeric_double)
    (@ComputeUnscaledError_unrotated_at float Numeric_double)
    (@cost_helpers.ScaleErrorWithCovariance float Numeric_double
       scenario.translation_block)
    c (prev_node_pose b) (next_node_pose b)
    (landmark_rotation b) (landmark_translation b)
    (Array6 0 0 0 0 0 0)%float.

(** The values of four blocks of jets. *)
Definition values (b : Blocks ceres.Jet) : Blocks float :=
  MakeBlocks (map3 ceres.a (prev_node_pose b)) (map3 ceres.a (next_node_pose b))
             (map4 ceres.a (landmark_rotation b))
             (map3 ceres.a (landmark_translation b)).

(** A double that is neither a zero, an infinity nor a NaN. *)
Definition is_finite_nonzero (x : float) : bool :=
  match Prim2SF x with S754_finite _ _ _ => true | _ => false end.

(** ** More nodes for the pose interpolator of the spec *)





(** ** Facts of IEEE 754 arithmetic *)

Ltac float_cases :=
  unfold Double.is_zero, Double.is_finite, Double.non_finite,
         Double.is_nan, Double.is_infinite in *;
  repeat match goal with
  | |- context [Prim2SF (?a * ?b)%float] => rewrite (mul_spec a b)
  | |- context [Prim2SF (?a + ?b)%float] => rewrite (add_spec a b)
  | |- context [Prim2SF (?a - ?b)%float] => rewrite (sub_spec a b)
  | |- context [Prim2SF (?a / ?b)%float] => rewrite (div_spec a b)
  end;
  repeat match goal with
  | H : context [Prim2SF ?a] |- _ => destruct (Prim2SF a) as [[|]| [|] | | [|] ? ?]
  | |- context [Prim2SF ?a] => destruct (Prim2SF a) as [[|]| [|] | | [|] ? ?]
  end;
  try discriminate; try reflexivity.

(** A quotient by either zero is a NaN or an infinity, whatever the
    dividend. *)
Lemma div_by_zero_non_finite (x d : float) :
  Double.is_zero d = true -> Double.non_finite (x / d) = true.
Proof. intros Hd. float_cases. Qed.

Lemma zero_is_finite (x : float) :
  Double.is_zero x = true -> Double.is_finite x = true.
Proof. intros Hx. float_cases. Qed.

Lemma mul_finite_zero (x y : float) :
  Double.is_finite x = true -> Double.is_zero y = true ->
  Double.is_zero (x * y) = true.
Proof. intros Hx Hy. float_cases. Qed.

Lemma mul_zero_finite (x y : float) :
  Double.is_zero x = true -> Double.is_finite y = true ->
  Double.is_zero (x * y) = true.
Proof. intros Hx Hy. float_cases. Qed.

Lemma add_zero_zero (x y : float) :
  Double.is_zero x = true -> Double.is_zero y = true ->
  Double.is_zero (x + y) = true.
Proof. intros Hx Hy. float_cases. Qed.

Lemma sub_zero_zero (x y : float) :
  Double.is_zero x = true -> Double.is_zero y = true ->
  Double.is_zero (x - y) = true.
Proof. intros Hx Hy. float_cases. Qed.

Lemma mul_nan_l (x y : float) :
  Double.is_nan x = true -> Double.is_nan (x * y) = true.
Proof. intros Hx. float_cases. Qed.

Lemma mul_nan_r (x y : float) :
  Double.is_nan y = true -> Double.is_nan (x * y) = true.
Proof. intros Hy. float_cases. Qed.

Lemma add_nan_l (x y : float) :
  Double.is_nan x = true -> Double.is_nan (x + y) = true.
Proof. intros Hx. float_cases. Qed.

Lemma add_nan_r (x y : float) :
  Double.is_nan y = true -> Double.is_nan (x + y) = true.
Proof. intros Hy. float_cases. Qed.

Create HintDb ieee_zero.
Create HintDb ieee_nan.

#[local] Hint Resolve zero_is_finite mul_finite_zero mul_zero_finite
  add_zero_zero sub_zero_zero : ieee_zero.

#[local] Hint Resolve mul_nan_l mul_nan_r add_nan_l add_nan_r : ieee_nan.

(** ** Runs of the scenario *)

Local Open Scope float_scope.

Example scenario_parameter :
  interpolation_parameter_
    (new (scenario.observation 1 1) scenario.prev_node scenario.next_node) = 0.5%float.
Proof. reflexivity. Qed.

Example scenario_zero_residual :
  scenario.run (new (scenario.observation 1 1) scenario.prev_node scenario.next_node)
               scenario.blocks
  = (true, Array6 0 0 0 0 0 0)%float.
Proof. vm_compute. reflexivity. Qed.

Example scenario_weighted_residual :
  scenario.run (new (scenario.observation 3 1) scenario.prev_node scenario.next_node)
               scenario.blocks_off
  = (true, Array6 (-3) 0 0 0 0 0)%float.
Proof. vm_compute. reflexivity. Qed.

(** A half turn about z takes (1, 2, 3) to (-1, -2, 3) and leaves the
    rotation error alone. *)
Example rotate_to_ENU_half_turn :
  rotate_to_ENU (Array4 0 0 0 1) (Array6 1 2 3 4 5 6)
  = Array6 (-1) (-2) 3 4 5 6.
Proof. vm_compute. reflexivity. Qed.

Example rotate_to_ENU_identity :
  rotate_to_ENU (Array4 1 0 0 0) (Array6 1 2 3 4 5 6) = Array6 1 2 3 4 5 6.
Proof. vm_compute. reflexivity. Qed.

(** A quaternion with an infinite component turns a zero translation error
    into NaNs. *)
Example rotate_to_ENU_infinite_quaternion :
  rotate_to_ENU (Array4 1 infinity 0 0) (Array6 0 0 0 0 0 0)
  = Array6 nan nan nan 0 0 0.
Proof. vm_compute. reflexivity. Qed.

(** ** The evaluator *)

Section EvaluatorFacts.

Context {T : Type} `{Numeric T}.

Variable InterpolateNodes2D :
  array3 T -> Eigen.Quaterniond -> array3 T -> Eigen.Quaterniond -> float ->
  array4 T * array3 T.

Variable ComputeUnscaledError :
  transform.Rigid3d -> array4 T -> array3 T -> array4 T -> array3 T -> array6 T.

Variable ScaleErrorWithCovariance :
  array6 T -> float -> float -> array9 float -> array6 T.

Let interpolated := interpolated_rotation_and_translation InterpolateNodes2D.
Let unscaled := unscaled_error InterpolateNodes2D ComputeUnscaledError.
Let operator :=
  call InterpolateNodes2D ComputeUnscaledError ScaleErrorWithCovariance.

(** The residual is the scaling of the rotated unscaled error. *)
Lemma call_pipeline c prev next lrot ltrans e :
  operator c prev next lrot ltrans e
  = (true,
     ScaleErrorWithCovariance
       (rotate_to_ENU (fst (interpolated c prev next))
                      (unscaled c prev next lrot ltrans))
       (translation_weight_ c) (rotation_weight_ c) (inverse_covariance_ c)).
Proof. reflexivity. Qed.

(** The rotation step touches the first three components only. *)
Lemma rotate_to_ENU_components (q : array4 T) (error : array6 T) :
  Eigen.MakeVector3 (at6_0 (rotate_to_ENU q error)) (at6_1 (rotate_to_ENU q error))
                    (at6_2 (rotate_to_ENU q error))
  = Eigen.transformVector
      (Eigen.MakeQuaternion (at4_0 q) (at4_1 q) (at4_2 q) (at4_3 q))
      (Eigen.MakeVector3 (at6_0 error) (at6_1 error) (at6_2 error))
  /\ at6_3 (rotate_to_ENU q error) = at6_3 error
  /\ at6_4 (rotate_to_ENU q error) = at6_4 error
  /\ at6_5 (rotate_to_ENU q error) = at6_5 error.
Proof. unfold rotate_to_ENU; cbn. repeat split. Qed.

(** C2: in every evaluation the unscaled error is [ComputeUnscaledError] of
    the landmark-to-tracking transform and two poses: when
    [observed_from_tracking_] is true the interpolated node pose comes first
    and the landmark pose estimate second, when it is false the landmark pose
    estimate comes first and the interpolated node pose second; the residual
    is computed from that error. *)
Theorem unscaled_error_pose_order c prev next lrot ltrans e :
  let irt := InterpolateNodes2D prev (prev_node_gravity_alignment_ c)
                                next (next_node_gravity_alignment_ c)
                                (interpolation_parameter_ c) in
  let error :=
    match observed_from_tracking_ c with
    | true => ComputeUnscaledError (landmark_to_tracking_transform_ c)
                                   (fst irt) (snd irt) lrot ltrans
    | false => ComputeUnscaledError (landmark_to_tracking_transform_ c)
                                    lrot ltrans (fst irt) (snd irt)
    end in
  unscaled c prev next lrot ltrans = error
  /\ snd (operator c prev next lrot ltrans e)
     = ScaleErrorWithCovariance (rotate_to_ENU (fst irt) error)
         (translation_weight_ c) (rotation_weight_ c) (inverse_covariance_ c).
Proof.
  intros irt error. subst irt error interpolated unscaled operator.
  unfold call, unscaled_error, interpolated_rotation_and_translation.
  destruct (observed_from_tracking_ c); split; reflexivity.
Qed.

(** C3: between the unscaled error and the covariance scaling, the
    translation error (components 0-2) is replaced by its image under the
    quaternion that [InterpolateNodes2D] returned, the interpolated rotation,
    and the rotation error (components 3-5) is passed on as it is. *)
Theorem translation_error_rotated_by_interpolated_rotation
    c prev next lrot ltrans e :
  let q := fst (InterpolateNodes2D prev (prev_node_gravity_alignment_ c)
                                   next (next_node_gravity_alignment_ c)
                                   (interpolation_parameter_ c)) in
  let error := unscaled c prev next lrot ltrans in
  exists rotated : array6 T,
    snd (operator c prev next lrot ltrans e)
    = ScaleErrorWithCovariance rotated (translation_weight_ c)
        (rotation_weight_ c) (inverse_covariance_ c)
    /\ Eigen.MakeVector3 (at6_0 rotated) (at6_1 rotated) (at6_2 rotated)
       = Eigen.transformVector
           (Eigen.MakeQuaternion (at4_0 q) (at4_1 q) (at4_2 q) (at4_3 q))
           (Eigen.MakeVector3 (at6_0 error) (at6_1 error) (at6_2 error))
    /\ at6_3 rotated = at6_3 error
    /\ at6_4 rotated = at6_4 error
    /\ at6_5 rotated = at6_5 error.
Proof.
  intros q error. exists (rotate_to_ENU q error). split.
  - subst q error operator unscaled. reflexivity.
  - apply rotate_to_ENU_components.
Qed.

(** C10: the frame rotation does not depend on the direction flag.  For
    either value [b] of [observed_from_tracking_], the translation error is
    rotated by the quaternion [InterpolateNodes2D] returned; with the flag
    false the landmark rotation is the first pose of [ComputeUnscaledError]
    and still is not the rotation applied. *)
Theorem frame_rotation_independent_of_flag
    (b : bool) c prev next lrot ltrans e :
  let irt := InterpolateNodes2D prev (prev_node_gravity_alignment_ c)
                                next (next_node_gravity_alignment_ c)
                                (interpolation_parameter_ c) in
  let l2t := landmark_to_tracking_transform_ c in
  let error :=
    if b then ComputeUnscaledError l2t (fst irt) (snd irt) lrot ltrans
    else ComputeUnscaledError l2t lrot ltrans (fst irt) (snd irt) in
  let rotated := rotate_to_ENU (fst irt) error in
  snd (operator (with_observed_from_tracking b c) prev next lrot ltrans e)
  = ScaleErrorWithCovariance rotated (translation_weight_ c)
      (rotation_weight_ c) (inverse_covariance_ c)
  /\ Eigen.MakeVector3 (at6_0 rotated) (at6_1 rotated) (at6_2 rotated)
     = Eigen.transformVector
         (Eigen.MakeQuaternion (at4_0 (fst irt)) (at4_1 (fst irt))
                               (at4_2 (fst irt)) (at4_3 (fst irt)))
         (Eigen.MakeVector3 (at6_0 error) (at6_1 error) (at6_2 error)).
Proof.
  intros irt l2t error rotated. split.
  - subst operator rotated error irt l2t.
    unfold call, unscaled_error, interpolated_rotation_and_translation.
    destruct b; reflexivity.
  - apply rotate_to_ENU_components.
Qed.

(** C7: whatever the object holds (the interpolation parameter [t] may be
    any double: below 0, above 1, infinite, NaN) and whatever the parameter
    blocks and the buffer hold, the call returns true, its only exit, and
    leaves in the six cells of the buffer the six components of the scaled,
    rotated error computed from this very [t]; nothing of what the buffer
    held stays. *)
Theorem call_returns_true
    l2t g0 g1 tw rw (t : float) flag cov prev next lrot ltrans e :
  let c := MakeLandmarkCostFunction2D l2t g0 g1 tw rw t flag cov in
  let irt := InterpolateNodes2D prev g0 next g1 t in
  let error :=
    if flag then ComputeUnscaledError l2t (fst irt) (snd irt) lrot ltrans
    else ComputeUnscaledError l2t lrot ltrans (fst irt) (snd irt) in
  let r := ScaleErrorWithCovariance (rotate_to_ENU (fst irt) error) tw rw cov in
  operator c prev next lrot ltrans e = (true, r)
  /\ elements6 (snd (operator c prev next lrot ltrans e))
     = [at6_0 r; at6_1 r; at6_2 r; at6_3 r; at6_4 r; at6_5 r].
Proof.
  intros c irt error r. rewrite call_pipeline.
  subst r error irt c interpolated unscaled.
  unfold unscaled_error, interpolated_rotation_and_translation.
  cbn [observed_from_tracking_ landmark_to_tracking_transform_
       prev_node_gravity_alignment_ next_node_gravity_alignment_
       interpolation_parameter_ translation_weight_ rotation_weight_
       inverse_covariance_ snd].
  destruct flag; split; reflexivity.
Qed.

Let evaluate' :=
  evaluate InterpolateNodes2D ComputeUnscaledError ScaleErrorWithCovariance.
Let evaluations' :=
  evaluations InterpolateNodes2D ComputeUnscaledError ScaleErrorWithCovariance.

(** A call leaves the object as it found it. *)
Lemma evaluate_this b s : this (snd (evaluate' b s)) = this s.
Proof. reflexivity. Qed.

(** So does a sequence of calls. *)
Lemma evaluations_this bs : forall s, this (evaluations' bs s) = this s.
Proof.
  induction bs as [|b bs IH]; intros s; cbn.
  - reflexivity.
  - subst evaluations'. cbn in IH. rewrite IH. reflexivity.
Qed.

(** The outcome of a call is a function of the object and the blocks. *)
Lemma evaluate_same_object b s s' :
  this s = this s' -> evaluate' b s = evaluate' b s'.
Proof.
  intros E. subst evaluate'. unfold evaluate, call. rewrite E. reflexivity.
Qed.

End EvaluatorFacts.

(** ** The constructor *)

(** No time passes between a time and itself. *)
Lemma ToSeconds_no_time (t : common.Time) :
  common.ToSeconds (common.time_diff t t) = 0%float.
Proof.
  unfold common.time_diff. rewrite Z.sub_diag. reflexivity.
Qed.

(** C6: the constructor stores, as the interpolation parameter, the seconds
    from the previous node to the observation divided by the seconds from
    the previous node to the next node; after any sequence of evaluations
    the object still holds that value, and it is the value an evaluation
    hands to [InterpolateNodes2D]. *)
Theorem interpolation_parameter_fixed_at_construction
    (observation : LandmarkObservation) (prev_node next_node : NodeSpec2D) :
  let c := new observation prev_node next_node in
  let t :=
    (common.ToSeconds (common.time_diff (time observation) (node_time prev_node))
     / common.ToSeconds (common.time_diff (node_time next_node) (node_time prev_node)))%float in
  interpolation_parameter_ c = t
  /\ forall (T : Type) (N : Numeric T) Interpolate Compute Scale
            (bs : list (Blocks T)) (e : array6 T) (prev next : array3 T),
       let c' := this (evaluations Interpolate Compute Scale bs (MakeStore c e)) in
       interpolation_parameter_ c' = t
       /\ interpolated_rotation_and_translation Interpolate c' prev next
          = Interpolate prev (gravity_alignment prev_node)
                        next (gravity_alignment next_node) t.
Proof.
  intros c t. split; [reflexivity|].
  intros T N Interpolate Compute Scale bs e prev next c'.
  assert (E : c' = c) by (subst c'; apply evaluations_this).
  rewrite E. split; reflexivity.
Qed.

(** C9: when the previous and the next node have the same timestamp, the
    constructor divides by zero seconds: the interpolation parameter it
    stores is an infinity or a NaN.  The object is built all the same, and
    every evaluation of it returns true. *)
Theorem equal_node_times_give_non_finite_parameter
    (observation : LandmarkObservation) (prev_node next_node : NodeSpec2D) :
  node_time prev_node = node_time next_node ->
  exists c : LandmarkCostFunction2D,
    new observation prev_node next_node = c
    /\ Double.non_finite (interpolation_parameter_ c) = true
    /\ forall (T : Type) (N : Numeric T) Interpolate Compute Scale
              (prev next : array3 T) (lrot : array4 T) (ltrans : array3 T)
              (e : array6 T),
         fst (call Interpolate Compute Scale c prev next lrot ltrans e) = true.
Proof.
  intros E. eexists. split; [reflexivity|]. split.
  - cbn [interpolation_parameter_ new]. rewrite E, ToSeconds_no_time.
    apply div_by_zero_non_finite. reflexivity.
  - reflexivity.
Qed.

(** The parameter is an infinity when the observation is later than the two
    nodes, which share a timestamp. *)
Lemma equal_node_times_witness :
  exists c : LandmarkCostFunction2D,
    new (scenario.observation 1 1) scenario.prev_node scenario.stalled_node = c
    /\ Double.non_finite (interpolation_parameter_ c) = true
    /\ forall (T : Type) (N : Numeric T) Interpolate Compute Scale
              (prev next : array3 T) (lrot : array4 T) (ltrans : array3 T)
              (e : array6 T),
         fst (call Interpolate Compute Scale c prev next lrot ltrans e) = true.
Proof.
  apply (equal_node_times_give_non_finite_parameter
           (scenario.observation 1 1) scenario.prev_node scenario.stalled_node).
  reflexivity.
Defined.

Example stalled_parameter_is_infinite :
  interpolation_parameter_
    (new (scenario.observation 1 1) scenario.prev_node scenario.stalled_node)
  = infinity.
Proof. reflexivity. Qed.

(** An observation at 2 s, after both nodes: the parameter is 2, the pose is
    extrapolated to x = 2, and the call returns true like any other. *)
Example extrapolated_evaluation :
  scenario.run
    (new (MakeLandmarkObservation 20000000%Z scenario.identity_transform 1 1 true
                                  scenario.identity_3x3)
         scenario.prev_node scenario.next_node)
    scenario.blocks
  = (true, Array6 1.5 0 0 0 0 0)%float.
Proof. vm_compute. reflexivity. Qed.

(** Two nodes and an observation at one time: the parameter is NaN, and the
    call returns true with NaN residuals. *)
Example nan_evaluation :
  scenario.run
    (new (scenario.observation 1 1) (scenario.node_at 5000000%Z)
         (scenario.node_at 5000000%Z))
    scenario.blocks
  = (true, Array6 nan nan nan nan nan nan)%float.
Proof. vm_compute. reflexivity. Qed.

Example stalled_parameter_is_nan :
  Double.is_nan
    (interpolation_parameter_
       (new (scenario.observation 1 1) (scenario.node_at 5000000%Z)
            (scenario.node_at 5000000%Z)))
  = true.
Proof. vm_compute. reflexivity. Qed.

(** ** The covariance scaling *)

(** C1, as the sources have it: the object holds nine doubles as its inverse
    covariance, not the thirty-six of a 6x6 matrix. *)
Lemma inverse_covariance_is_not_6x6 :
  Nat.eqb
    (length (elements9 (inverse_covariance_
       (new (scenario.observation 1 1) scenario.prev_node scenario.next_node))))
    (6 * 6)
  = false.
Proof. reflexivity. Qed.

(** C1, amended: the scaling step multiplies the translation components
    (0-2) of the 6-vector error by the translation weight and its rotation
    components (3-5) by the rotation weight, then applies the inverse
    covariance, which is an array of nine doubles, as a linear transform of
    the weighted 6-vector; the result is the residual of the evaluation. *)
Theorem covariance_scaling_of_nine_doubles
    (T : Type) (N : Numeric T)
    (linear_transform : array9 float -> array6 (array6 float))
    Interpolate Compute (c : LandmarkCostFunction2D)
    (prev next : array3 T) (lrot : array4 T) (ltrans : array3 T) (e : array6 T) :
  let error :=
    rotate_to_ENU
      (fst (interpolated_rotation_and_translation Interpolate c prev next))
      (unscaled_error Interpolate Compute c prev next lrot ltrans) in
  let weighted :=
    Array6 (at6_0 error * of_double (translation_weight_ c))%num
           (at6_1 error * of_double (translation_weight_ c))%num
           (at6_2 error * of_double (translation_weight_ c))%num
           (at6_3 error * of_double (rotation_weight_ c))%num
           (at6_4 error * of_double (rotation_weight_ c))%num
           (at6_5 error * of_double (rotation_weight_ c))%num in
  let m := linear_transform (inverse_covariance_ c) in
  length (elements9 (inverse_covariance_ c)) = 9%nat
  /\ cost_helpers.ScaleErrorWithCovariance linear_transform error
       (translation_weight_ c) (rotation_weight_ c) (inverse_covariance_ c)
     = Array6 (cost_helpers.row_times (at6_0 m) weighted)
              (cost_helpers.row_times (at6_1 m) weighted)
              (cost_helpers.row_times (at6_2 m) weighted)
              (cost_helpers.row_times (at6_3 m) weighted)
              (cost_helpers.row_times (at6_4 m) weighted)
              (cost_helpers.row_times (at6_5 m) weighted)
  /\ call Interpolate Compute
          (cost_helpers.ScaleErrorWithCovariance linear_transform)
          c prev next lrot ltrans e
     = (true,
        cost_helpers.ScaleErrorWithCovariance linear_transform error
          (translation_weight_ c) (rotation_weight_ c) (inverse_covariance_ c)).
Proof.
  intros error weighted m. repeat split.
Qed.


(** ** A zero error, in doubles *)

Ltac split_all :=
  repeat match goal with
  | H : _ && _ = true |- _ => apply andb_prop in H; destruct H
  | H : all_zero _ = true |- _ => unfold all_zero in H; cbn [forallb elements6] in H
  | H : all_finite _ = true |- _ => unfold all_finite in H; cbn [forallb elements6] in H
  end.

Ltac zeros := auto 20 with ieee_zero.

(** A finite rotation takes a zero translation error to a zero translation
    error. *)
Lemma rotate_to_ENU_zero (q : array4 float) (error : array6 float) :
  forallb Double.is_finite (elements4 q) = true ->
  all_zero error = true ->
  all_zero (rotate_to_ENU q error) = true.
Proof.
  intros Hq He. destruct q as [qw qx qy qz], error as [e0 e1 e2 e3 e4 e5].
  cbn [forallb elements4 at4_0 at4_1 at4_2 at4_3] in Hq. split_all.
  cbn [at6_0 at6_1 at6_2 at6_3 at6_4 at6_5] in *.
  unfold all_zero, rotate_to_ENU, Eigen.transformVector, Eigen.cross, Eigen.vec.
  cbn -[PrimFloat.add PrimFloat.sub PrimFloat.mul Double.is_zero].
  repeat (apply andb_true_intro; split); zeros.
Qed.

(** Finite weights take a zero error to a zero error. *)
Lemma scale_by_weights_zero (error : array6 float) (tw rw : float) :
  Double.is_finite tw = true -> Double.is_finite rw = true ->
  all_zero error = true ->
  all_zero (cost_helpers.scale_by_weights error tw rw) = true.
Proof.
  intros Htw Hrw He. destruct error as [e0 e1 e2 e3 e4 e5]. split_all.
  cbn [at6_0 at6_1 at6_2 at6_3 at6_4 at6_5] in *.
  unfold all_zero, cost_helpers.scale_by_weights.
  cbn -[PrimFloat.add PrimFloat.sub PrimFloat.mul Double.is_zero].
  repeat (apply andb_true_intro; split); zeros.
Qed.

(** A finite row times a zero vector is a zero. *)
Lemma row_times_zero (row v : array6 float) :
  all_finite row = true -> all_zero v = true ->
  Double.is_zero (cost_helpers.row_times row v) = true.
Proof.
  intros Hr Hv. destruct row as [r0 r1 r2 r3 r4 r5], v as [v0 v1 v2 v3 v4 v5].
  split_all. cbn [at6_0 at6_1 at6_2 at6_3 at6_4 at6_5] in *.
  unfold cost_helpers.row_times.
  cbn -[PrimFloat.add PrimFloat.sub PrimFloat.mul Double.is_zero].
  zeros.
Qed.

Lemma matrix_times_zero (m : array6 (array6 float)) (v : array6 float) :
  forallb all_finite (elements6 m) = true -> all_zero v = true ->
  all_zero (cost_helpers.matrix_times m v) = true.
Proof.
  intros Hm Hv. destruct m as [m0 m1 m2 m3 m4 m5].
  cbn [forallb elements6 at6_0 at6_1 at6_2 at6_3 at6_4 at6_5] in Hm.
  repeat match goal with
  | H : _ && _ = true |- _ => apply andb_prop in H; destruct H
  end.
  unfold all_zero, cost_helpers.matrix_times.
  cbn [forallb elements6 at6_0 at6_1 at6_2 at6_3 at6_4 at6_5].
  repeat (apply andb_true_intro; split); auto using row_times_zero.
Qed.

(** A NaN among the weighted components makes the first residual a NaN,
    whatever the matrix. *)
Lemma row_times_nan (row v : array6 float) :
  Double.is_nan (at6_0 v) = true ->
  Double.is_nan (cost_helpers.row_times row v) = true.
Proof.
  intros Hv. unfold cost_helpers.row_times.
  cbn -[PrimFloat.add PrimFloat.sub PrimFloat.mul Double.is_nan].
  auto 10 with ieee_nan.
Qed.

(** C5, as the sources have it: in the end-to-end scenario with an infinite
    translation weight the unscaled error is the zero vector and the
    residual is not: zero times infinity is a NaN, for the example reading
    of the nine doubles (all six residuals) and for every other reading
    (the first residual). *)
Lemma zero_error_infinite_weight_gives_nan :
  unscaled_error scenario.InterpolateNodes2D_unrotated
                 scenario.ComputeUnscaledError_unrotated
                 (scenario.cost_function infinity 1)
                 (prev_node_pose scenario.blocks) (next_node_pose scenario.blocks)
                 (landmark_rotation scenario.blocks)
                 (landmark_translation scenario.blocks)
  = Array6 0 0 0 0 0 0
  /\ scenario.run (scenario.cost_function infinity 1) scenario.blocks
     = (true, Array6 nan nan nan nan nan nan)
  /\ all_zero (snd (scenario.run (scenario.cost_function infinity 1)
                                 scenario.blocks))
     = false
  /\ forall linear_transform : array9 float -> array6 (array6 float),
       Double.is_nan
         (at6_0 (snd (call scenario.InterpolateNodes2D_unrotated
                           scenario.ComputeUnscaledError_unrotated
                           (cost_helpers.ScaleErrorWithCovariance linear_transform)
                           (scenario.cost_function infinity 1)
                           (prev_node_pose scenario.blocks)
                           (next_node_pose scenario.blocks)
                           (landmark_rotation scenario.blocks)
                           (landmark_translation scenario.blocks)
                           (Array6 0 0 0 0 0 0))))
       = true.
Proof.
  split; [vm_compute; reflexivity|].
  split; [vm_compute; reflexivity|].
  split; [vm_compute; reflexivity|].
  intros linear_transform. rewrite call_pipeline. cbn [snd].
  unfold cost_helpers.ScaleErrorWithCovariance, cost_helpers.matrix_times.
  cbn [at6_0]. apply row_times_nan. vm_compute. reflexivity.
Qed.

(** C5, amended: in doubles, when the unscaled error is the zero vector and
    the interpolated rotation, the two weights and the entries of the linear
    transform of the inverse covariance are finite, every component of the
    residual is a zero. *)
Theorem zero_error_gives_zero_residual
    (linear_transform : array9 float -> array6 (array6 float))
    Interpolate Compute (c : LandmarkCostFunction2D)
    (prev next : array3 float) (lrot : array4 float) (ltrans : array3 float)
    (e : array6 float) :
  all_zero (unscaled_error Interpolate Compute c prev next lrot ltrans) = true ->
  forallb Double.is_finite
    (elements4 (fst (interpolated_rotation_and_translation Interpolate c prev next)))
  = true ->
  Double.is_finite (translation_weight_ c) = true ->
  Double.is_finite (rotation_weight_ c) = true ->
  forallb all_finite (elements6 (linear_transform (inverse_covariance_ c))) = true ->
  all_zero
    (snd (call Interpolate Compute
               (cost_helpers.ScaleErrorWithCovariance linear_transform)
               c prev next lrot ltrans e))
  = true.
Proof.
  intros Herror Hq Htw Hrw Hm. rewrite call_pipeline. cbn [snd].
  unfold cost_helpers.ScaleErrorWithCovariance.
  apply matrix_times_zero; [exact Hm|].
  apply scale_by_weights_zero; [exact Htw|exact Hrw|].
  apply rotate_to_ENU_zero; assumption.
Qed.

(** The end-to-end scenario of the spec, with unit weights. *)
Lemma zero_error_gives_zero_residual_witness :
  all_zero
    (snd (scenario.run (scenario.cost_function 1 1) scenario.blocks))
  = true.
Proof.
  unfold scenario.run.
  apply (zero_error_gives_zero_residual scenario.translation_block
           scenario.InterpolateNodes2D_unrotated
           scenario.ComputeUnscaledError_unrotated);
    vm_compute; reflexivity.
Defined.

(** ** The pose interpolator of the spec, at its two ends *)

Section Interpolator.

Import pose_interpolator.
Local Open Scope R_scope.











End Interpolator.




(** ** The frame rotation in doubles: NaN and degenerate quaternions *)

Lemma sub_nan_l (x y : float) :
  Double.is_nan x = true -> Double.is_nan (x - y) = true.
Proof. intros Hx. float_cases. Qed.

Lemma sub_nan_r (x y : float) :
  Double.is_nan y = true -> Double.is_nan (x - y) = true.
Proof. intros Hy. float_cases. Qed.

Create HintDb ieee_nan_all.

#[local] Hint Resolve mul_nan_l mul_nan_r add_nan_l add_nan_r
  sub_nan_l sub_nan_r : ieee_nan_all.

(** X1: a NaN in the interpolated quaternion or in the translation error makes
    the three rotated translation components NaN; the rotation error is
    passed on untouched. *)
Theorem rotate_to_ENU_nan (q : array4 float) (error : array6 float) :
  existsb Double.is_nan
          (elements4 q ++ [at6_0 error; at6_1 error; at6_2 error]) = true ->
  Double.is_nan (at6_0 (rotate_to_ENU q error)) = true
  /\ Double.is_nan (at6_1 (rotate_to_ENU q error)) = true
  /\ Double.is_nan (at6_2 (rotate_to_ENU q error)) = true
  /\ at6_3 (rotate_to_ENU q error) = at6_3 error
  /\ at6_4 (rotate_to_ENU q error) = at6_4 error
  /\ at6_5 (rotate_to_ENU q error) = at6_5 error.
Proof.
  destruct q as [qw qx qy qz], error as [e0 e1 e2 e3 e4 e5].
  cbn [existsb elements4 app at4_0 at4_1 at4_2 at4_3 at6_0 at6_1 at6_2].
  intros Hnan.
  unfold rotate_to_ENU, Eigen.transformVector, Eigen.cross, Eigen.vec.
  cbn -[PrimFloat.add PrimFloat.sub PrimFloat.mul Double.is_nan].
  repeat match type of Hnan with
  | (_ || _) = true => apply orb_prop in Hnan; destruct Hnan as [Hnan|Hnan]
  end;
  try discriminate Hnan;
  repeat split; auto 12 with ieee_nan_all.
Qed.

(** A NaN rotation about to meet a sound error. *)
Lemma rotate_to_ENU_nan_witness :
  Double.is_nan (at6_0 (rotate_to_ENU (Array4 1 0 nan 0) (Array6 1 2 3 4 5 6))) = true
  /\ Double.is_nan (at6_1 (rotate_to_ENU (Array4 1 0 nan 0) (Array6 1 2 3 4 5 6))) = true
  /\ Double.is_nan (at6_2 (rotate_to_ENU (Array4 1 0 nan 0) (Array6 1 2 3 4 5 6))) = true
  /\ at6_3 (rotate_to_ENU (Array4 1 0 nan 0) (Array6 1 2 3 4 5 6)) = 4
  /\ at6_4 (rotate_to_ENU (Array4 1 0 nan 0) (Array6 1 2 3 4 5 6)) = 5
  /\ at6_5 (rotate_to_ENU (Array4 1 0 nan 0) (Array6 1 2 3 4 5 6)) = 6.
Proof.
  apply (rotate_to_ENU_nan (Array4 1 0 nan 0) (Array6 1 2 3 4 5 6)).
  vm_compute. reflexivity.
Defined.

(** Adding a zero to a finite double gives a double of the same value. *)
Lemma add_zero_same_value (x y : float) :
  Double.is_finite x = true -> Double.is_zero y = true ->
  same_value (x + y) x.
Proof.
  intros Hx Hy. unfold same_value, Double.is_finite, Double.is_zero in *.
  destruct (Prim2SF x) as [sx| | |sx mx ex] eqn:Ex; try discriminate.
  - right. rewrite add_spec, Ex. split; [|reflexivity].
    destruct (Prim2SF y) as [sy| | |]; try discriminate.
    destruct sx, sy; reflexivity.
  - left. apply Prim2SF_inj. rewrite add_spec, Ex.
    destruct (Prim2SF y) as [sy| | |]; try discriminate. reflexivity.
Qed.

Lemma same_value_finite (x y : float) :
  same_value x y -> Double.is_finite y = true -> Double.is_finite x = true.
Proof.
  intros [->|[Hx _]] Hy; [exact Hy|apply zero_is_finite, Hx].
Qed.

Lemma same_value_trans (x y z : float) :
  same_value x y -> same_value y z -> same_value x z.
Proof.
  intros [->|[Hx Hy]] [->|[Hy' Hz]]; unfold same_value; auto.
Qed.

(** The sum of a finite double and two zeros. *)
Lemma add_two_zeros_same_value (x y z : float) :
  Double.is_finite x = true -> Double.is_zero y = true ->
  Double.is_zero z = true -> same_value (x + y + z) x.
Proof.
  intros Hx Hy Hz.
  pose proof (add_zero_same_value x y Hx Hy) as Hxy.
  apply same_value_trans with (x + y)%float; [|exact Hxy].
  apply add_zero_same_value; [|exact Hz].
  apply same_value_finite with x; assumption.
Qed.

(** X2: a quaternion with no vector part (the identity, its negation, the zero
    quaternion, any finite [w]) leaves a finite translation error as it is,
    up to the sign of a zero. *)
Theorem rotate_to_ENU_no_vector_part (w x y z : float) (error : array6 float) :
  Double.is_finite w = true ->
  Double.is_zero x = true -> Double.is_zero y = true -> Double.is_zero z = true ->
  Double.is_finite (at6_0 error) = true ->
  Double.is_finite (at6_1 error) = true ->
  Double.is_finite (at6_2 error) = true ->
  same_value (at6_0 (rotate_to_ENU (Array4 w x y z) error)) (at6_0 error)
  /\ same_value (at6_1 (rotate_to_ENU (Array4 w x y z) error)) (at6_1 error)
  /\ same_value (at6_2 (rotate_to_ENU (Array4 w x y z) error)) (at6_2 error).
Proof.
  destruct error as [e0 e1 e2 e3 e4 e5].
  cbn [at6_0 at6_1 at6_2]. intros Hw Hx Hy Hz H0 H1 H2.
  unfold rotate_to_ENU, Eigen.transformVector, Eigen.cross, Eigen.vec.
  cbn -[PrimFloat.add PrimFloat.sub PrimFloat.mul same_value].
  repeat split; apply add_two_zeros_same_value; auto 12 with ieee_zero.
Qed.

(** The zero quaternion, a degenerate rotation, changes nothing. *)
Lemma rotate_to_ENU_no_vector_part_witness :
  same_value (at6_0 (rotate_to_ENU (Array4 0 0 0 0) (Array6 1 2 3 4 5 6))) 1
  /\ same_value (at6_1 (rotate_to_ENU (Array4 0 0 0 0) (Array6 1 2 3 4 5 6))) 2
  /\ same_value (at6_2 (rotate_to_ENU (Array4 0 0 0 0) (Array6 1 2 3 4 5 6))) 3.
Proof.
  apply (rotate_to_ENU_no_vector_part 0 0 0 0 (Array6 1 2 3 4 5 6));
    vm_compute; reflexivity.
Defined.

(** ** The frame rotation in exact arithmetic *)

Section ExactRotation.

Variable cast : float -> R.

Local Open Scope R_scope.

Lemma rotate_to_ENU_length_defect (q : array4 R) (e : array6 R) :
  translation_length2 (rotate_to_ENU_exact cast q e) - translation_length2 e
  = 4 * (quaternion_norm2 q - 1) * cross_length2 q e.
Proof.
  destruct q as [qw qx qy qz], e as [e0 e1 e2 e3 e4 e5].
  unfold translation_length2, quaternion_norm2, cross_length2, rotate_to_ENU_exact.
  cbn. ring.
Qed.

(** X4: how the rotation step changes the length of the translation error,
    for any quaternion (w, u): by 4 (|q|^2 - 1) |u x e|^2. *)
Theorem rotate_to_ENU_length (q : array4 R) (e : array6 R) :
  translation_length2 (rotate_to_ENU_exact cast q e)
  = translation_length2 e + 4 * (quaternion_norm2 q - 1) * cross_length2 q e.
Proof.
  rewrite <- rotate_to_ENU_length_defect. ring.
Qed.

(** X3: with a unit quaternion the rotation step is an isometry: the translation
    error keeps its length. *)
Theorem rotate_to_ENU_isometry (q : array4 R) (e : array6 R) :
  quaternion_norm2 q = 1 ->
  translation_length2 (rotate_to_ENU_exact cast q e) = translation_length2 e.
Proof.
  intros Hq. pose proof (rotate_to_ENU_length_defect q e) as D.
  rewrite Hq in D. lra.
Qed.

(** X5: a quaternion and its negation rotate alike. *)
Theorem rotate_to_ENU_negated_quaternion (q : array4 R) (e : array6 R) :
  rotate_to_ENU_exact cast (map4 Ropp q) e = rotate_to_ENU_exact cast q e.
Proof.
  destruct q as [qw qx qy qz], e as [e0 e1 e2 e3 e4 e5].
  unfold rotate_to_ENU_exact, rotate_to_ENU, map4. cbn. f_equal; ring.
Qed.

(** X6: the rotation step is linear in the translation error. *)
Theorem rotate_to_ENU_linear (q : array4 R) (k : R) (e e' : array6 R) :
  let combined :=
    Array6 (k * at6_0 e + at6_0 e') (k * at6_1 e + at6_1 e')
           (k * at6_2 e + at6_2 e') (at6_3 e) (at6_4 e) (at6_5 e) in
  let rotate := rotate_to_ENU_exact cast q in
  at6_0 (rotate combined) = k * at6_0 (rotate e) + at6_0 (rotate e')
  /\ at6_1 (rotate combined) = k * at6_1 (rotate e) + at6_1 (rotate e')
  /\ at6_2 (rotate combined) = k * at6_2 (rotate e) + at6_2 (rotate e').
Proof.
  destruct q as [qw qx qy qz], e as [e0 e1 e2 e3 e4 e5],
           e' as [e0' e1' e2' e3' e4' e5'].
  unfold rotate_to_ENU_exact. cbn. repeat split; ring.
Qed.

End ExactRotation.

(** The unit quaternion (4/5, 0, 0, 3/5) and the error (1, 2, 3). *)
Lemma rotate_to_ENU_isometry_witness :
  translation_length2
    (rotate_to_ENU_exact (fun _ => 0%R)
       (Array4 (4 / 5) 0 0 (3 / 5))%R (Array6 1 2 3 0 0 0)%R)
  = translation_length2 (Array6 1 2 3 0 0 0)%R.
Proof.
  apply (@rotate_to_ENU_isometry (fun _ => 0%R)
           (Array4 (4 / 5) 0 0 (3 / 5))%R (Array6 1 2 3 0 0 0)%R).
  unfold quaternion_norm2. cbn. field.
Defined.

(** ** The constructor and the clock *)

(** A 64-bit count differs from the integer it wraps by a multiple of
    2^64. *)
Lemma int64_wraps (u : Z) : exists k : Z, common.int64 u = (u + k * 2 ^ 64)%Z.
Proof.
  unfold common.int64. exists (- ((u + 2 ^ 63) / 2 ^ 64))%Z.
  pose proof (Z.div_mod (u + 2 ^ 63) (2 ^ 64)) as D.
  assert (N : (2 ^ 64 <> 0)%Z) by (intros E; discriminate E).
  specialize (D N). lia.
Qed.

Lemma int64_plus_multiple (u k : Z) :
  common.int64 (u + k * 2 ^ 64) = common.int64 u.
Proof.
  unfold common.int64.
  replace (u + k * 2 ^ 64 + 2 ^ 63)%Z with (u + 2 ^ 63 + k * 2 ^ 64)%Z by ring.
  rewrite Z_mod_plus_full. reflexivity.
Qed.

(** The difference of two times does not see a shift of the clock, also
    when the shifted times wrap around. *)
Lemma time_diff_shift (k : Z) (a b : common.Time) :
  common.time_diff (shift_time k a) (shift_time k b) = common.time_diff a b.
Proof.
  unfold common.time_diff, shift_time.
  destruct (int64_wraps (a + k)) as [p ->], (int64_wraps (b + k)) as [q ->].
  replace (a + k + p * 2 ^ 64 - (b + k + q * 2 ^ 64))%Z
    with (a - b + (p - q) * 2 ^ 64)%Z by ring.
  apply int64_plus_multiple.
Qed.

(** X7: the cost function depends on the three timestamps through their
    differences only: moving the observation and both nodes by the same
    number of ticks gives the same object. *)
Theorem new_shift_invariant (k : Z) (observation : LandmarkObservation)
    (prev_node next_node : NodeSpec2D) :
  new (shift_observation k observation)
      (shift_node k prev_node) (shift_node k next_node)
  = new observation prev_node next_node.
Proof.
  unfold new, shift_observation, shift_node. cbn.
  rewrite !time_diff_shift. reflexivity.
Qed.

(** A zero divided by anything is a zero or a NaN. *)
Lemma zero_div (n d : float) :
  Double.is_zero n = true ->
  Double.is_zero (n / d) || Double.is_nan (n / d) = true.
Proof. intros Hn. float_cases. Qed.

(** X8: an observation made at the time of the previous node has interpolation
    parameter zero, or NaN when the division is degenerate; it is never any
    other number. *)
Theorem observation_at_previous_node
    (observation : LandmarkObservation) (prev_node next_node : NodeSpec2D) :
  time observation = node_time prev_node ->
  Double.is_zero (interpolation_parameter_ (new observation prev_node next_node))
  || Double.is_nan (interpolation_parameter_ (new observation prev_node next_node))
  = true.
Proof.
  intros E. cbn [interpolation_parameter_ new].
  rewrite E, ToSeconds_no_time. apply zero_div. reflexivity.
Qed.

(** The observation at 0 s, the time of the previous node of the scenario. *)
Lemma observation_at_previous_node_witness :
  Double.is_zero
    (interpolation_parameter_
       (new (MakeLandmarkObservation 0%Z scenario.identity_transform 1 1 true
                                     scenario.identity_3x3)
            scenario.prev_node scenario.next_node))
  || Double.is_nan
       (interpolation_parameter_
          (new (MakeLandmarkObservation 0%Z scenario.identity_transform 1 1 true
                                        scenario.identity_3x3)
               scenario.prev_node scenario.next_node))
  = true.
Proof.
  apply (observation_at_previous_node
           (MakeLandmarkObservation 0%Z scenario.identity_transform 1 1 true
                                    scenario.identity_3x3)
           scenario.prev_node scenario.next_node).
  reflexivity.
Defined.

(** ** Evaluation with jets *)

Section AutoDiff.

Variable N : nat.

Variable InterpolateJ :
  array3 ceres.Jet -> Eigen.Quaterniond -> array3 ceres.Jet -> Eigen.Quaterniond ->
  float -> array4 ceres.Jet * array3 ceres.Jet.
Variable ComputeJ :
  transform.Rigid3d -> array4 ceres.Jet -> array3 ceres.Jet ->
  array4 ceres.Jet -> array3 ceres.Jet -> array6 ceres.Jet.
Variable ScaleJ :
  array6 ceres.Jet -> float -> float -> array9 float -> array6 ceres.Jet.

Variable InterpolateD :
  array3 float -> Eigen.Quaterniond -> array3 float -> Eigen.Quaterniond ->
  float -> array4 float * array3 float.
Variable ComputeD :
  transform.Rigid3d -> array4 float -> array3 float ->
  array4 float -> array3 float -> array6 float.
Variable ScaleD :
  array6 float -> float -> float -> array9 float -> array6 float.

(** The value parts of the rotation step on jets are the rotation step on
    the value parts. *)
Lemma rotate_to_ENU_values (q : array4 ceres.Jet) (error : array6 ceres.Jet) :
  map6 ceres.a (rotate_to_ENU_jet N q error)
  = rotate_to_ENU_double (map4 ceres.a q) (map6 ceres.a error).
Proof. reflexivity. Qed.

(** X10: when each helper on jets has, as values, what the helper on doubles
    computes from the values, so has the evaluator: asking for Jacobians
    does not change the residuals. *)
Theorem call_jet_values c prev next lrot ltrans e e' :
  (forall p g0 n g1 t,
      (map4 ceres.a (fst (InterpolateJ p g0 n g1 t)),
       map3 ceres.a (snd (InterpolateJ p g0 n g1 t)))
      = InterpolateD (map3 ceres.a p) g0 (map3 ceres.a n) g1 t) ->
  (forall rel sr st er et,
      map6 ceres.a (ComputeJ rel sr st er et)
      = ComputeD rel (map4 ceres.a sr) (map3 ceres.a st)
                 (map4 ceres.a er) (map3 ceres.a et)) ->
  (forall err tw rw cov,
      map6 ceres.a (ScaleJ err tw rw cov) = ScaleD (map6 ceres.a err) tw rw cov) ->
  fst (call_jet N InterpolateJ ComputeJ ScaleJ c prev next lrot ltrans e)
  = fst (call_double InterpolateD ComputeD ScaleD c
           (map3 ceres.a prev) (map3 ceres.a next)
           (map4 ceres.a lrot) (map3 ceres.a ltrans) e')
  /\ map6 ceres.a
       (snd (call_jet N InterpolateJ ComputeJ ScaleJ c prev next lrot ltrans e))
     = snd (call_double InterpolateD ComputeD ScaleD c
              (map3 ceres.a prev) (map3 ceres.a next)
              (map4 ceres.a lrot) (map3 ceres.a ltrans) e').
Proof.
  intros HI HC HS. split; [reflexivity|].
  unfold call_jet, call_double, call, unscaled_error,
         interpolated_rotation_and_translation.
  cbn [snd].
  rewrite HS. f_equal.
  fold (rotate_to_ENU_jet N). rewrite rotate_to_ENU_values.
  unfold rotate_to_ENU_double.
  specialize (HI prev (prev_node_gravity_alignment_ c)
                 next (next_node_gravity_alignment_ c)
                 (interpolation_parameter_ c)).
  rewrite <- HI. cbn [fst snd].
  f_equal. destruct (observed_from_tracking_ c); apply HC.
Qed.

End AutoDiff.

(** The scenario with its 13 parameters seeded. *)
Lemma call_jet_values_witness :
  fst (run_jet (scenario.cost_function 3 1) seeded_blocks)
  = fst (run_double (scenario.cost_function 3 1) (values seeded_blocks))
  /\ map6 ceres.a (snd (run_jet (scenario.cost_function 3 1) seeded_blocks))
     = snd (run_double (scenario.cost_function 3 1) (values seeded_blocks)).
Proof.
  unfold run_jet, run_double.
  apply (call_jet_values 13
           (@InterpolateNodes2D_unrotated_at ceres.Jet (ceres.Numeric_Jet 13))
           (@ComputeUnscaledError_unrotated_at ceres.Jet (ceres.Numeric_Jet 13))
           (@cost_helpers.ScaleErrorWithCovariance ceres.Jet (ceres.Numeric_Jet 13)
              scenario.translation_block)
           (@InterpolateNodes2D_unrotated_at float Numeric_double)
           (@ComputeUnscaledError_unrotated_at float Numeric_double)
           (@cost_helpers.ScaleErrorWithCovariance float Numeric_double
              scenario.translation_block));
    intros; reflexivity.
Defined.

(** In the scenario with translation weight 3, the first residual moves by
    1.5 per unit of either node's x and by -3 per unit of the landmark's
    x. *)
Example scenario_jacobian_row :
  ceres.v (at6_0 (snd (run_jet (scenario.cost_function 3 1) seeded_blocks)))
  = [1.5; 0; 0; 1.5; 0; 0; 0; 0; 0; 0; -3; 0; 0].
Proof. vm_compute. reflexivity. Qed.

(** ** The derivative vectors of the rotation step *)

Lemma zip_with_length (op : float -> float -> float) (n : nat) :
  forall u w : list float,
    length u = n -> length w = n -> length (ceres.zip_with op u w) = n.
Proof.
  induction n as [|n IH]; intros [|x u] [|y w] Hu Hw;
    try discriminate; cbn in *; [reflexivity|].
  f_equal. apply IH; congruence.
Qed.

Lemma jet_plus_well_sized (n : nat) (f g : ceres.Jet) :
  ceres.well_sized n f -> ceres.well_sized n g ->
  ceres.well_sized n (ceres.jet_plus f g).
Proof. unfold ceres.well_sized. intros; cbn. now apply zip_with_length. Qed.

Lemma jet_minus_well_sized (n : nat) (f g : ceres.Jet) :
  ceres.well_sized n f -> ceres.well_sized n g ->
  ceres.well_sized n (ceres.jet_minus f g).
Proof. unfold ceres.well_sized. intros; cbn. now apply zip_with_length. Qed.

Lemma jet_times_well_sized (n : nat) (f g : ceres.Jet) :
  ceres.well_sized n f -> ceres.well_sized n g ->
  ceres.well_sized n (ceres.jet_times f g).
Proof.
  unfold ceres.well_sized. intros Hf Hg; cbn.
  apply zip_with_length; rewrite length_map; assumption.
Qed.

Create HintDb jets.

#[local] Hint Resolve jet_plus_well_sized jet_minus_well_sized
  jet_times_well_sized : jets.

(** X11: when the interpolated rotation and the error carry [n] derivatives each,
    so does every component the rotation step returns: no Jacobian entry is
    lost or made up. *)
Theorem rotate_to_ENU_well_sized (n : nat)
    (q : array4 ceres.Jet) (error : array6 ceres.Jet) :
  Forall (ceres.well_sized n) (elements4 q) ->
  Forall (ceres.well_sized n) (elements6 error) ->
  Forall (ceres.well_sized n) (elements6 (rotate_to_ENU_jet n q error)).
Proof.
  destruct q as [qw qx qy qz], error as [e0 e1 e2 e3 e4 e5].
  unfold elements4, elements6; cbn [at4_0 at4_1 at4_2 at4_3
                                     at6_0 at6_1 at6_2 at6_3 at6_4 at6_5].
  intros Hq He.
  repeat match goal with
  | H : Forall _ (_ :: _) |- _ => inversion H; subst; clear H
  | H : Forall _ [] |- _ => clear H
  end.
  unfold rotate_to_ENU_jet, rotate_to_ENU, Eigen.transformVector,
         Eigen.cross, Eigen.vec.
  cbn -[ceres.jet_plus ceres.jet_minus ceres.jet_times].
  repeat constructor; auto 12 with jets.
Qed.

(** The seeded blocks of the scenario: 13 derivatives in, 13 out. *)
Lemma rotate_to_ENU_well_sized_witness :
  Forall (ceres.well_sized 13)
    (elements6
       (rotate_to_ENU_jet 13 (landmark_rotation seeded_blocks)
          (Array6 (seed 13 10 0.5) (seed 13 11 0) (seed 13 12 0)
                  (seed 13 0 0) (seed 13 1 0) (seed 13 2 0)))).
Proof.
  apply (@rotate_to_ENU_well_sized 13 (landmark_rotation seeded_blocks)
           (Array6 (seed 13 10 0.5) (seed 13 11 0) (seed 13 12 0)
                   (seed 13 0 0) (seed 13 1 0) (seed 13 2 0)));
    repeat constructor.
Defined.

Example thirteen_parameters : ceres.number_of_parameters = 13%nat.
Proof. reflexivity. Qed.

(** ** Sequences of calls and the direction flag *)

Section MoreEvaluatorFacts.

Context {T : Type} `{Numeric T}.

Variable InterpolateNodes2D :
  array3 T -> Eigen.Quaterniond -> array3 T -> Eigen.Quaterniond -> float ->
  array4 T * array3 T.

Variable ComputeUnscaledError :
  transform.Rigid3d -> array4 T -> array3 T -> array4 T -> array3 T -> array6 T.

Variable ScaleErrorWithCovariance :
  array6 T -> float -> float -> array9 float -> array6 T.

(** Calls made one after the other. *)
Lemma evaluations_app (bs bs' : list (Blocks T)) : forall s : Store T,
  evaluations InterpolateNodes2D ComputeUnscaledError ScaleErrorWithCovariance
              (bs ++ bs') s
  = evaluations InterpolateNodes2D ComputeUnscaledError ScaleErrorWithCovariance bs'
      (evaluations InterpolateNodes2D ComputeUnscaledError ScaleErrorWithCovariance
                   bs s).
Proof.
  induction bs as [|b bs IH]; intros s; cbn; [reflexivity|apply IH].
Qed.

(** X12: after any sequence of calls the buffer holds the residuals of the last
    call and nothing of the earlier ones: they are what that call alone
    writes, on the object as built, into any buffer. *)
Theorem last_evaluation_wins (bs : list (Blocks T)) (b : Blocks T)
    (s : Store T) (e : array6 T) :
  residuals
    (evaluations InterpolateNodes2D ComputeUnscaledError ScaleErrorWithCovariance
                 (bs ++ [b]) s)
  = snd (call InterpolateNodes2D ComputeUnscaledError ScaleErrorWithCovariance
              (this s) (prev_node_pose b) (next_node_pose b)
              (landmark_rotation b) (landmark_translation b) e).
Proof.
  rewrite evaluations_app. cbn [evaluations evaluate snd residuals].
  rewrite (evaluations_this InterpolateNodes2D ComputeUnscaledError
             ScaleErrorWithCovariance bs s).
  reflexivity.
Qed.

(** X13: when the landmark pose estimate is the interpolated node pose itself,
    the direction flag makes no difference to the call. *)
Theorem flag_irrelevant_at_interpolated_pose
    (c : LandmarkCostFunction2D) (prev next : array3 T)
    (lrot : array4 T) (ltrans : array3 T) (e : array6 T) :
  interpolated_rotation_and_translation InterpolateNodes2D c prev next
  = (lrot, ltrans) ->
  call InterpolateNodes2D ComputeUnscaledError ScaleErrorWithCovariance
       (with_observed_from_tracking true c) prev next lrot ltrans e
  = call InterpolateNodes2D ComputeUnscaledError ScaleErrorWithCovariance
         (with_observed_from_tracking false c) prev next lrot ltrans e.
Proof.
  intros E. unfold call, unscaled_error.
  change (interpolated_rotation_and_translation InterpolateNodes2D
            (with_observed_from_tracking true c) prev next)
    with (interpolated_rotation_and_translation InterpolateNodes2D c prev next).
  change (interpolated_rotation_and_translation InterpolateNodes2D
            (with_observed_from_tracking false c) prev next)
    with (interpolated_rotation_and_translation InterpolateNodes2D c prev next).
  rewrite E. reflexivity.
Qed.

End MoreEvaluatorFacts.

(** The scenario: the landmark estimate (0.5, 0, 0) is the interpolated
    pose. *)
Lemma flag_irrelevant_at_interpolated_pose_witness :
  scenario.run (with_observed_from_tracking true (scenario.cost_function 1 1))
               scenario.blocks
  = scenario.run (with_observed_from_tracking false (scenario.cost_function 1 1))
                 scenario.blocks.
Proof.
  unfold scenario.run.
  apply (flag_irrelevant_at_interpolated_pose
           scenario.InterpolateNodes2D_unrotated
           scenario.ComputeUnscaledError_unrotated
           (cost_helpers.ScaleErrorWithCovariance scenario.translation_block)
           (scenario.cost_function 1 1)).
  vm_compute. reflexivity.
Defined.

(** ** An observation at the time of the next node *)

Lemma div_eucl_shift (m : positive) :
  Z.div_eucl (Z.shiftl (Zpos m) 53) (Zpos m) = (2 ^ 53, 0)%Z.
Proof.
  rewrite Z.shiftl_mul_pow2 by lia.
  assert (E : forall a b, Z.div_eucl a b = (a / b, a mod b)%Z)
    by (intros a b; unfold Z.div, Z.modulo; destruct (Z.div_eucl a b); reflexivity).
  rewrite E, (Z.mul_comm (Zpos m)), Z.div_mul, Z.mod_mul by lia.
  reflexivity.
Qed.

(** A finite double other than zero, divided by itself, is exactly 1. *)
Lemma div_self (x : float) : is_finite_nonzero x = true -> (x / x = 1)%float.
Proof.
  unfold is_finite_nonzero. intros H.
  destruct (Prim2SF x) as [| | |s m e] eqn:E; try discriminate.
  apply Prim2SF_inj. rewrite div_spec, E.
  unfold SF64div, SFdiv, SFdiv_core_binary.
  rewrite !Z.sub_diag.
  change (Z.min (fexp prec emax 0) 0) with (-53)%Z.
  change (0 - -53)%Z with 53%Z.
  cbv iota beta.
  change (IntDef.Z.div_eucl (IntDef.Z.shiftl (Zpos m) 53) (Zpos m))
    with (Z.div_eucl (Z.shiftl (Zpos m) 53) (Zpos m)).
  rewrite div_eucl_shift.
  replace (new_location (Zpos m) 0) with loc_Exact
    by (unfold new_location, new_location_even, new_location_odd;
        destruct (Z.even (Zpos m)); reflexivity).
  destruct s; vm_compute; reflexivity.
Qed.

(** X9: an observation made at the time of the next node has interpolation
    parameter exactly 1, provided the seconds between the two nodes are a
    finite double other than zero. *)
Theorem observation_at_next_node
    (observation : LandmarkObservation) (prev_node next_node : NodeSpec2D) :
  time observation = node_time next_node ->
  is_finite_nonzero
    (common.ToSeconds (common.time_diff (node_time next_node) (node_time prev_node)))
  = true ->
  interpolation_parameter_ (new observation prev_node next_node) = 1%float.
Proof.
  intros E Hd. cbn [interpolation_parameter_ new]. rewrite E.
  apply div_self, Hd.
Qed.

(** The observation at 1 s, the time of the next node of the scenario. *)
Lemma observation_at_next_node_witness :
  interpolation_parameter_
    (new (MakeLandmarkObservation 10000000%Z scenario.identity_transform 1 1 true
                                  scenario.identity_3x3)
         scenario.prev_node scenario.next_node)
  = 1%float.
Proof.
  apply (observation_at_next_node
           (MakeLandmarkObservation 10000000%Z scenario.identity_transform 1 1 true
                                    scenario.identity_3x3)
           scenario.prev_node scenario.next_node);
    vm_compute; reflexivity.
Defined.
